(** * The task model of [task_manager/task.py]

    A shallow embedding of the [Task] dataclass: its two enumerations, the
    normalisation done by [__post_init__], [validate], the guarded status
    transitions, the field updates, [is_overdue] and [to_dict].

    Methods mutate [self] and may raise, so they live in a state-and-error
    monad over the task record: the state that comes out of a raising
    computation is the object as the exception leaves it. *)

From Stdlib Require Import ZArith NArith List Bool String Ascii Lia.
From Stdlib Require Import DecimalString.
Import ListNotations.

Local Open Scope Z_scope.

(** ** Python strings *)

(** A [str] is a sequence of Unicode code points; [len] is its length. *)
Definition str := list N.

(** An ASCII literal as a [str]. *)
Definition lit (s : string) : str :=
  map N_of_ascii (list_ascii_of_string s).

Definition str_eqb (a b : str) : bool :=
  if list_eq_dec N.eq_dec a b then true else false.

Definition len (s : str) : nat := List.length s.

(** Truth value of a string: the empty string is false. *)
Definition str_bool (s : str) : bool :=
  match s with [] => false | _ :: _ => true end.

(** [str.isspace] on one code point: the code points CPython's
    [_PyUnicode_IsWhitespace] accepts. *)
Definition isspace (c : N) : bool :=
  ((0x09 <=? c) && (c <=? 0x0D) ||
   (0x1C <=? c) && (c <=? 0x20) ||
   (c =? 0x85) || (c =? 0xA0) || (c =? 0x1680) ||
   (0x2000 <=? c) && (c <=? 0x200A) ||
   (c =? 0x2028) || (c =? 0x2029) || (c =? 0x202F) ||
   (c =? 0x205F) || (c =? 0x3000))%N.

Fixpoint lstrip (s : str) : str :=
  match s with
  | c :: s' => if isspace c then lstrip s' else s
  | [] => []
  end.

Definition rstrip (s : str) : str := rev (lstrip (rev s)).

(** [s.strip()] with no argument: leading and trailing whitespace removed. *)
Definition strip (s : str) : str := rstrip (lstrip s).

(** ** Naive datetimes

    A [datetime] without time zone, which is what [datetime.now()] returns. *)

Record datetime : Type := mk_datetime {
  year : N; month : N; day : N;
  hour : N; minute : N; second : N; microsecond : N
}.

Definition lex (c1 c2 : comparison) : comparison :=
  match c1 with Eq => c2 | _ => c1 end.

(** Naive datetimes compare field by field, most significant first. *)
Definition datetime_compare (a b : datetime) : comparison :=
  lex (year a ?= year b)%N
  (lex (month a ?= month b)%N
  (lex (day a ?= day b)%N
  (lex (hour a ?= hour b)%N
  (lex (minute a ?= minute b)%N
  (lex (second a ?= second b)%N
       (microsecond a ?= microsecond b)%N))))).

Definition datetime_ltb (a b : datetime) : bool :=
  match datetime_compare a b with Lt => true | _ => false end.

Definition datetime_gtb (a b : datetime) : bool :=
  match datetime_compare a b with Gt => true | _ => false end.

(** ["%0wd"]: decimal digits of [n], zero-padded on the left to width [w]. *)
Definition zfill (w : nat) (n : N) : string :=
  let digits := NilZero.string_of_uint (N.to_uint n) in
  (string_of_list_ascii (repeat "0"%char (w - String.length digits)) ++ digits)%string.

(** [datetime.isoformat()] of a naive datetime: [YYYY-MM-DDTHH:MM:SS], followed
    by [.ffffff] when the microsecond field is not zero. *)
Definition isoformat (d : datetime) : str :=
  lit
    (zfill 4 (year d) ++ "-" ++ zfill 2 (month d) ++ "-" ++ zfill 2 (day d)
     ++ "T" ++ zfill 2 (hour d) ++ ":" ++ zfill 2 (minute d) ++ ":"
     ++ zfill 2 (second d)
     ++ (if (microsecond d =? 0)%N then "" else "." ++ zfill 6 (microsecond d)))%string.

(** ** Exceptions and results *)

(** Modelled from the spec: [ValidationError] is imported from
    [task_manager/exceptions.py]; it is the one application-level error, raised
    with a message. The other constructors are the built-in exceptions the
    enumeration lookups and attribute accesses of the module can raise. *)
Inductive exception : Type :=
  | ValidationError (msg : string)
  | KeyError (key : str)
  | ValueError (value : Z)
  | AttributeError (attr : string).

Inductive Result (A : Type) : Type :=
  | Return (a : A)
  | Raise (e : exception).
Arguments Return {A} a.
Arguments Raise {A} e.

Definition is_ValidationError (e : exception) : bool :=
  match e with ValidationError _ => true | _ => false end.

(** ** Enumerations *)

Inductive TaskStatus : Type := PENDING | IN_PROGRESS | COMPLETED | CANCELLED.

Inductive TaskPriority : Type := LOW | MEDIUM | HIGH | CRITICAL.

Definition TaskStatus_eqb (a b : TaskStatus) : bool :=
  match a, b with
  | PENDING, PENDING | IN_PROGRESS, IN_PROGRESS
  | COMPLETED, COMPLETED | CANCELLED, CANCELLED => true
  | _, _ => false
  end.

Definition TaskStatus_value (s : TaskStatus) : str :=
  match s with
  | PENDING => lit "pending"
  | IN_PROGRESS => lit "in_progress"
  | COMPLETED => lit "completed"
  | CANCELLED => lit "cancelled"
  end.

Definition TaskPriority_value (p : TaskPriority) : Z :=
  match p with LOW => 1 | MEDIUM => 2 | HIGH => 3 | CRITICAL => 4 end.

Definition TaskPriority_name (p : TaskPriority) : str :=
  match p with
  | LOW => lit "LOW"
  | MEDIUM => lit "MEDIUM"
  | HIGH => lit "HIGH"
  | CRITICAL => lit "CRITICAL"
  end.

(** [TaskPriority[name]]: lookup by member name, [KeyError] otherwise. *)
Definition TaskPriority_getitem (name : str) : Result TaskPriority :=
  if str_eqb name (lit "LOW") then Return LOW
  else if str_eqb name (lit "MEDIUM") then Return MEDIUM
  else if str_eqb name (lit "HIGH") then Return HIGH
  else if str_eqb name (lit "CRITICAL") then Return CRITICAL
  else Raise (KeyError name).

(** [TaskPriority(value)]: lookup by member value, [ValueError] otherwise.
    (Python's [True] and [False] are the integers 1 and 0 here.) *)
Definition TaskPriority_call (value : Z) : Result TaskPriority :=
  if value =? 1 then Return LOW
  else if value =? 2 then Return MEDIUM
  else if value =? 3 then Return HIGH
  else if value =? 4 then Return CRITICAL
  else Raise (ValueError value).

(** ** The task record *)

(** What the [priority] attribute may hold:
    [Union[TaskPriority, int, str, None]]. *)
Inductive priority_value : Type :=
  | OfEnum (p : TaskPriority)
  | OfInt (n : Z)
  | OfStr (s : str)
  | OfNone.

Record Task : Type := mk_Task {
  task_id : Z;
  title : str;
  description : str;
  status : TaskStatus;
  priority : priority_value;
  created_at : datetime;
  updated_at : datetime;
  due_date : option datetime
}.

Definition with_title (v : str) (t : Task) : Task :=
  mk_Task (task_id t) v (description t) (status t) (priority t)
          (created_at t) (updated_at t) (due_date t).

Definition with_description (v : str) (t : Task) : Task :=
  mk_Task (task_id t) (title t) v (status t) (priority t)
          (created_at t) (updated_at t) (due_date t).

Definition with_status (v : TaskStatus) (t : Task) : Task :=
  mk_Task (task_id t) (title t) (description t) v (priority t)
          (created_at t) (updated_at t) (due_date t).

Definition with_priority (v : priority_value) (t : Task) : Task :=
  mk_Task (task_id t) (title t) (description t) (status t) v
          (created_at t) (updated_at t) (due_date t).

Definition with_updated_at (v : datetime) (t : Task) : Task :=
  mk_Task (task_id t) (title t) (description t) (status t) (priority t)
          (created_at t) v (due_date t).

(** ** Methods as computations on [self] *)

Definition M (A : Type) : Type := Task -> Result A * Task.

Definition ret {A} (a : A) : M A := fun self => (Return a, self).

Definition raise {A} (e : exception) : M A := fun self => (Raise e, self).

Definition bind {A B} (m : M A) (k : A -> M B) : M B :=
  fun self =>
    match m self with
    | (Return a, self') => k a self'
    | (Raise e, self') => (Raise e, self')
    end.

Definition get : M Task := fun self => (Return self, self).

Definition modify (f : Task -> Task) : M unit := fun self => (Return tt, f self).

Definition lift {A} (r : Result A) : M A := fun self => (r, self).

Definition when (b : bool) (m : M unit) : M unit := if b then m else ret tt.

Notation "x <- c1 ;; c2" := (bind c1 (fun x => c2))
  (at level 61, c1 at next level, right associativity).
Notation "c1 ;; c2" := (bind c1 (fun _ => c2))
  (at level 61, right associativity).

(** The outcome of running a method and the object it leaves behind. *)
Definition outcome {A} (r : Result A * Task) : Result A := fst r.
Definition after {A} (r : Result A * Task) : Task := snd r.

Definition assign_title (v : str) : M unit := modify (with_title v).
Definition assign_description (v : str) : M unit := modify (with_description v).
Definition assign_status (v : TaskStatus) : M unit := modify (with_status v).
Definition assign_priority (v : priority_value) : M unit := modify (with_priority v).
Definition assign_updated_at (v : datetime) : M unit := modify (with_updated_at v).

(** Values stored in the dictionary [to_dict] builds. *)
Inductive pyvalue : Type :=
  | PyInt (n : Z)
  | PyStr (s : str)
  | PyBool (b : bool)
  | PyNone.

(** A dictionary display, as the key/value pairs in the order written. *)
Definition dict := list (string * pyvalue).

Fixpoint dict_get (d : dict) (k : string) : option pyvalue :=
  match d with
  | [] => None
  | (k', v) :: d' => if String.eqb k k' then Some v else dict_get d' k
  end.

Definition keys (d : dict) : list string := map fst d.

Definition validate : M unit :=
  self <- get ;;
  when (negb (str_bool (title self)) || (len (strip (title self)) =? 0)%nat)
       (raise (ValidationError "Title cannot be empty")) ;;
  when (200 <? len (title self))%nat
       (raise (ValidationError "Title cannot exceed 200 characters")) ;;
  when (task_id self <? 0)
       (raise (ValidationError "Task ID must be non-negative")) ;;
  when (match due_date self with
        | Some due => datetime_ltb due (created_at self)
        | None => false
        end)
       (raise (ValidationError "Due date cannot be before creation date")).

(** [now] is the value [datetime.now()] returns during the call. *)
Definition mark_in_progress (now : datetime) : M unit :=
  self <- get ;;
  when (TaskStatus_eqb (status self) COMPLETED)
       (raise (ValidationError "Cannot modify a completed task")) ;;
  when (TaskStatus_eqb (status self) CANCELLED)
       (raise (ValidationError "Cannot modify a cancelled task")) ;;
  assign_status IN_PROGRESS ;;
  assign_updated_at now.

Definition mark_completed (now : datetime) : M unit :=
  self <- get ;;
  when (TaskStatus_eqb (status self) CANCELLED)
       (raise (ValidationError "Cannot complete a cancelled task")) ;;
  assign_status COMPLETED ;;
  assign_updated_at now.

Definition mark_cancelled (now : datetime) : M unit :=
  self <- get ;;
  when (TaskStatus_eqb (status self) COMPLETED)
       (raise (ValidationError "Cannot cancel a completed task")) ;;
  assign_status CANCELLED ;;
  assign_updated_at now.

Definition update_title (new_title : str) (now : datetime) : M unit :=
  when (negb (str_bool new_title) || (len (strip new_title) =? 0)%nat)
       (raise (ValidationError "Title cannot be empty")) ;;
  when (200 <? len new_title)%nat
       (raise (ValidationError "Title cannot exceed 200 characters")) ;;
  assign_title new_title ;;
  assign_updated_at now.

Definition update_description (new_description : str) (now : datetime) : M unit :=
  assign_description new_description ;;
  assign_updated_at now.

Definition is_overdue (now : datetime) : M bool :=
  self <- get ;;
  match due_date self with
  | None => ret false
  | Some due =>
      ret (datetime_gtb now due
           && negb (TaskStatus_eqb (status self) COMPLETED)
           && negb (TaskStatus_eqb (status self) CANCELLED))
  end.

(** [self.priority.value]: only an enumeration member has the attribute. *)
Definition priority_dot_value (p : priority_value) : M Z :=
  match p with
  | OfEnum m => ret (TaskPriority_value m)
  | _ => raise (AttributeError "value")
  end.

Definition to_dict (now : datetime) : M dict :=
  self <- get ;;
  priority_code <- priority_dot_value (priority self) ;;
  overdue <- is_overdue now ;;
  ret [ ("task_id", PyInt (task_id self));
        ("title", PyStr (title self));
        ("description", PyStr (description self));
        ("status", PyStr (TaskStatus_value (status self)));
        ("priority", PyInt priority_code);
        ("created_at", PyStr (isoformat (created_at self)));
        ("updated_at", PyStr (isoformat (updated_at self)));
        ("due_date", match due_date self with
                     | Some due => PyStr (isoformat due)
                     | None => PyNone
                     end);
        ("is_overdue", PyBool overdue) ]%string.

(** *** Methods that uppercase a string

    [str.upper] maps each code point to its uppercase expansion. On ASCII that
    is the shift of [a]..[z]; the Unicode table for the other code points is
    the parameter [unicode_upper]. *)
Section Upper.

Variable unicode_upper : N -> str.

Definition upper_char (c : N) : str :=
  if ((0x61 <=? c) && (c <=? 0x7A))%N then [(c - 0x20)%N]
  else if (c <? 0x80)%N then [c]
  else unicode_upper c.

Definition upper (s : str) : str := flat_map upper_char s.

Definition post_init : M unit :=
  self <- get ;;
  match priority self with
  | OfStr s =>
      p <- lift (TaskPriority_getitem (upper s)) ;;
      assign_priority (OfEnum p)
  | OfInt n =>
      p <- lift (TaskPriority_call n) ;;
      assign_priority (OfEnum p)
  | OfNone => assign_priority (OfEnum MEDIUM)
  | OfEnum _ => ret tt
  end ;;
  validate.

(** The generated [__init__] stores its arguments and runs [__post_init__];
    the caller gets the object only when nothing was raised. *)
Definition Task_new (task_id : Z) (title description : str) (status : TaskStatus)
    (priority : priority_value) (created_at updated_at : datetime)
    (due_date : option datetime) : Result Task :=
  match post_init (mk_Task task_id title description status priority
                           created_at updated_at due_date) with
  | (Return _, self) => Return self
  | (Raise e, _) => Raise e
  end.

Definition set_priority (p : priority_value) (now : datetime) : M unit :=
  match p with
  | OfStr s =>
      m <- lift (TaskPriority_getitem (upper s)) ;;
      assign_priority (OfEnum m)
  | OfInt n =>
      m <- lift (TaskPriority_call n) ;;
      assign_priority (OfEnum m)
  | _ => assign_priority p
  end ;;
  assign_updated_at now.

End Upper.

(** An excerpt of the Unicode uppercase table (the Latin-1 range, dotless i
    and the fi ligature), the identity elsewhere. Used to run the examples. *)
Definition upper_excerpt (c : N) : str :=
  (if c =? 0xDF then [0x53; 0x53]
   else if c =? 0xB5 then [0x39C]
   else if c =? 0xFF then [0x178]
   else if (0xE0 <=? c) && (c <=? 0xFE) && negb (c =? 0xF7) then [c - 0x20]
   else if c =? 0x131 then [0x49]
   else if c =? 0xFB01 then [0x46; 0x49]
   else [c])%N.

(** Sample data: three instants and a pending task due at [t1]. *)
Definition t0 : datetime := mk_datetime 2024 5 17 9 30 0 0.
Definition t1 : datetime := mk_datetime 2024 5 18 9 30 0 250.
Definition t2 : datetime := mk_datetime 2024 5 19 0 0 0 0.

Definition sample : Task :=
  mk_Task 1 (lit "Write spec") [] PENDING (OfEnum HIGH) t0 t0 (Some t1).

(** ** Vocabulary of the statements *)

Definition raises_ValidationError {A} (r : Result A * Task) : Prop :=
  exists msg, outcome r = Raise (ValidationError msg).

Definition succeeds {A} (r : Result A * Task) : Prop :=
  exists a, outcome r = Return a.

(** The three guarded status transitions. *)
Definition transitions : list (datetime -> M unit) :=
  [mark_in_progress; mark_completed; mark_cancelled].

Definition whitespace_only (s : str) : bool := forallb isspace s.

Definition datetime_lt (a b : datetime) : Prop := datetime_compare a b = Lt.

(** A priority argument the enumeration does not know: a string whose
    uppercase form is no member name, or an integer that is no member value. *)
Definition unrecognized (unicode_upper : N -> str) (p : priority_value) : Prop :=
  match p with
  | OfStr s => forall m, upper unicode_upper s <> TaskPriority_name m
  | OfInt n => forall m, n <> TaskPriority_value m
  | _ => False
  end.

(** The exception the failed enumeration lookup raises. *)
Definition lookup_error (unicode_upper : N -> str) (p : priority_value) : exception :=
  match p with
  | OfStr s => KeyError (upper unicode_upper s)
  | OfInt n => ValueError n
  | _ => AttributeError "value"
  end.

(** The four rules [validate] checks. *)
Definition valid (t : Task) : Prop :=
  whitespace_only (title t) = false /\
  (len (title t) <= 200)%nat /\
  0 <= task_id t /\
  (forall due, due_date t = Some due -> ~ datetime_lt due (created_at t)).

Definition is_member (p : priority_value) : bool :=
  match p with OfEnum _ => true | _ => false end.

(** The member [__post_init__] stores for a priority argument, when it
    stores one. *)
Definition normalizes_to (unicode_upper : N -> str) (p : priority_value)
    (m : TaskPriority) : Prop :=
  match p with
  | OfEnum m' => m' = m
  | OfInt n => n = TaskPriority_value m
  | OfStr s => upper unicode_upper s = TaskPriority_name m
  | OfNone => m = MEDIUM
  end.

(** [Task(task_id, title)]: every other field takes its default, the two
    timestamps from two successive readings of the clock. *)
Definition Task_default (unicode_upper : N -> str) (now1 now2 : datetime)
    (task_id : Z) (title : str) : Result Task :=
  Task_new unicode_upper task_id title [] PENDING (OfEnum MEDIUM) now1 now2 None.

(** ** Sequences of calls *)

(** A call of one of the mutating methods, with its argument. *)
Inductive call : Type :=
  | MarkInProgress
  | MarkCompleted
  | MarkCancelled
  | UpdateTitle (new_title : str)
  | UpdateDescription (new_description : str)
  | SetPriority (p : priority_value).

Definition run_call (unicode_upper : N -> str) (c : call) (now : datetime)
    : M unit :=
  match c with
  | MarkInProgress => mark_in_progress now
  | MarkCompleted => mark_completed now
  | MarkCancelled => mark_cancelled now
  | UpdateTitle new_title => update_title new_title now
  | UpdateDescription new_description => update_description new_description now
  | SetPriority p => set_priority unicode_upper p now
  end.

(** A caller that makes the calls in order, each at its own time, catches
    whatever a call raises and goes on with the same object. *)
Fixpoint run_calls (unicode_upper : N -> str) (cs : list (call * datetime))
    (t : Task) : Task :=
  match cs with
  | [] => t
  | (c, now) :: cs' =>
      run_calls unicode_upper cs' (after (run_call unicode_upper c now t))
  end.

(** A call whose argument has the annotated type: [set_priority] is declared
    for [Union[TaskPriority, str, int]], which leaves out [None]. *)
Definition well_typed (c : call) : Prop :=
  match c with
  | SetPriority OfNone => False
  | _ => True
  end.

(** ** Strings: stripping *)

Lemma lstrip_nil_iff (s : str) : lstrip s = [] <-> forallb isspace s = true.
Proof.
  induction s as [|c s IH]; simpl.
  - tauto.
  - destruct (isspace c); simpl.
    + exact IH.
    + split; discriminate.
Qed.

Lemma lstrip_fixed (s : str) : lstrip (lstrip s) = lstrip s.
Proof.
  induction s as [|c s IH]; simpl; [reflexivity|].
  destruct (isspace c) eqn:E; [exact IH|].
  simpl. now rewrite E.
Qed.

Lemma forallb_isspace_rev (s : str) :
  forallb isspace (rev s) = forallb isspace s.
Proof.
  induction s as [|c s IH]; simpl; [reflexivity|].
  rewrite forallb_app, IH. simpl. rewrite andb_true_r. apply andb_comm.
Qed.

Lemma strip_nil_iff (s : str) : strip s = [] <-> forallb isspace s = true.
Proof.
  unfold strip, rstrip. split.
  - intros H.
    assert (H1 : lstrip (rev (lstrip s)) = []).
    { rewrite <- (rev_involutive (lstrip (rev (lstrip s)))), H. reflexivity. }
    apply lstrip_nil_iff in H1. rewrite forallb_isspace_rev in H1.
    apply lstrip_nil_iff in H1. rewrite lstrip_fixed in H1.
    now apply lstrip_nil_iff.
  - intros H. apply lstrip_nil_iff in H. now rewrite H.
Qed.

(** The emptiness test of [validate] and [update_title] holds exactly on the
    strings made of whitespace only (the empty string among them). *)
Lemma blank_test (s : str) :
  negb (str_bool s) || (len (strip s) =? 0)%nat = whitespace_only s.
Proof.
  unfold whitespace_only.
  destruct (forallb isspace s) eqn:E.
  - apply strip_nil_iff in E. rewrite E. apply orb_true_r.
  - destruct s as [|c s]; [discriminate|]. simpl negb. simpl orb.
    destruct (strip (c :: s)) eqn:S; [|reflexivity].
    apply strip_nil_iff in S. congruence.
Qed.

(** ** Datetimes: the order *)

Lemma lex_antisym (c1 c2 : comparison) :
  CompOpp (lex c1 c2) = lex (CompOpp c1) (CompOpp c2).
Proof. now destruct c1. Qed.

Lemma datetime_compare_antisym (a b : datetime) :
  datetime_compare b a = CompOpp (datetime_compare a b).
Proof.
  unfold datetime_compare. rewrite !lex_antisym, <- !N.compare_antisym.
  reflexivity.
Qed.

Lemma datetime_gtb_ltb (a b : datetime) : datetime_gtb a b = datetime_ltb b a.
Proof.
  unfold datetime_gtb, datetime_ltb. rewrite (datetime_compare_antisym a b).
  now destruct (datetime_compare a b).
Qed.

Lemma datetime_ltb_lt (a b : datetime) : datetime_ltb a b = true <-> datetime_lt a b.
Proof.
  unfold datetime_ltb, datetime_lt.
  destruct (datetime_compare a b); split; congruence.
Qed.

Lemma datetime_compare_eq (a b : datetime) : datetime_compare a b = Eq <-> a = b.
Proof.
  split.
  - destruct a, b. unfold datetime_compare, lex. simpl.
    repeat match goal with
           | |- context [(?x ?= ?y)%N] =>
               let E := fresh in
               destruct (N.compare_spec x y) as [E|E|E];
               [subst | discriminate | discriminate]
           end.
    reflexivity.
  - intros ->. unfold datetime_compare. now rewrite !N.compare_refl.
Qed.

Lemma datetime_lt_irrefl (a : datetime) : ~ datetime_lt a a.
Proof.
  unfold datetime_lt. now rewrite (proj2 (datetime_compare_eq a a) eq_refl).
Qed.

(** ** Status transitions *)

Lemma TaskStatus_eqb_eq (a b : TaskStatus) : TaskStatus_eqb a b = true <-> a = b.
Proof. destruct a, b; simpl; split; congruence. Qed.

(** What each transition computes, by the status it starts from. *)
Lemma mark_in_progress_run (now : datetime) (t : Task) :
  mark_in_progress now t =
  match status t with
  | COMPLETED => (Raise (ValidationError "Cannot modify a completed task"), t)
  | CANCELLED => (Raise (ValidationError "Cannot modify a cancelled task"), t)
  | _ => (Return tt, with_updated_at now (with_status IN_PROGRESS t))
  end.
Proof. unfold mark_in_progress, bind, get. simpl. now destruct (status t). Qed.

Lemma mark_completed_run (now : datetime) (t : Task) :
  mark_completed now t =
  match status t with
  | CANCELLED => (Raise (ValidationError "Cannot complete a cancelled task"), t)
  | _ => (Return tt, with_updated_at now (with_status COMPLETED t))
  end.
Proof. unfold mark_completed, bind, get. simpl. now destruct (status t). Qed.

Lemma mark_cancelled_run (now : datetime) (t : Task) :
  mark_cancelled now t =
  match status t with
  | COMPLETED => (Raise (ValidationError "Cannot cancel a completed task"), t)
  | _ => (Return tt, with_updated_at now (with_status CANCELLED t))
  end.
Proof. unfold mark_cancelled, bind, get. simpl. now destruct (status t). Qed.

Ltac by_status t :=
  rewrite ?mark_in_progress_run, ?mark_completed_run, ?mark_cancelled_run;
  destruct (status t) eqn:?; simpl.

Ltac no_error :=
  match goal with
  | H : exists _, _ = _ |- _ => destruct H; discriminate
  | H : _ \/ _ |- _ => destruct H; discriminate
  | H : _ = _ |- _ => discriminate H
  end.

(** C1. The guards follow the transition matrix: [mark_in_progress] raises
    [ValidationError] exactly from COMPLETED and CANCELLED, [mark_completed]
    exactly from CANCELLED, [mark_cancelled] exactly from COMPLETED; an
    operation that succeeds leaves the status at its target. *)
Theorem transition_guards (now : datetime) (t : Task) :
  (raises_ValidationError (mark_in_progress now t)
     <-> status t = COMPLETED \/ status t = CANCELLED) /\
  (raises_ValidationError (mark_completed now t) <-> status t = CANCELLED) /\
  (raises_ValidationError (mark_cancelled now t) <-> status t = COMPLETED) /\
  (succeeds (mark_in_progress now t)
     -> status (after (mark_in_progress now t)) = IN_PROGRESS) /\
  (succeeds (mark_completed now t)
     -> status (after (mark_completed now t)) = COMPLETED) /\
  (succeeds (mark_cancelled now t)
     -> status (after (mark_cancelled now t)) = CANCELLED).
Proof.
  unfold raises_ValidationError, succeeds, outcome, after.
  by_status t; repeat split; intros H;
    try reflexivity; try no_error; eauto.
Qed.

Lemma transition_guards_witness :
  raises_ValidationError (mark_in_progress t2 (with_status CANCELLED sample)) /\
  status (after (mark_cancelled t2 sample)) = CANCELLED.
Proof.
  split.
  - apply (transition_guards t2 (with_status CANCELLED sample)). now right.
  - apply (transition_guards t2 sample). now exists tt.
Defined.

(** C2. A transition that raises [ValidationError] leaves the task as it
    found it, [status] and [updated_at] included. *)
Theorem failed_transition_keeps_task (op : datetime -> M unit)
    (now : datetime) (t : Task) (msg : string) :
  In op transitions ->
  outcome (op now t) = Raise (ValidationError msg) ->
  after (op now t) = t.
Proof.
  unfold transitions, outcome, after.
  intros [<- | [<- | [<- | []]]]; by_status t; intros H;
    solve [reflexivity | discriminate H].
Qed.

Lemma failed_transition_keeps_task_witness :
  In mark_cancelled transitions /\
  outcome (mark_cancelled t2 (with_status COMPLETED sample))
    = Raise (ValidationError "Cannot cancel a completed task") /\
  after (mark_cancelled t2 (with_status COMPLETED sample))
    = with_status COMPLETED sample.
Proof.
  split; [simpl; tauto|]. split; [reflexivity|].
  apply (failed_transition_keeps_task mark_cancelled t2
           (with_status COMPLETED sample) "Cannot cancel a completed task").
  - simpl. tauto.
  - reflexivity.
Defined.

(** C8, as the claim words it, fails: completing a completed task moves
    [updated_at] to the time of the call. *)
Lemma mark_completed_again_touches_updated_at :
  status (with_status COMPLETED sample) = COMPLETED /\
  outcome (mark_completed t2 (with_status COMPLETED sample)) = Return tt /\
  updated_at (with_status COMPLETED sample) = t0 /\
  updated_at (after (mark_completed t2 (with_status COMPLETED sample))) = t2 /\
  after (mark_completed t2 (with_status COMPLETED sample))
    <> with_status COMPLETED sample.
Proof. repeat split. discriminate. Qed.

(** C8, amended. On a COMPLETED task [mark_completed] raises nothing and
    changes no field except [updated_at], which becomes the time of the call. *)
Theorem mark_completed_again (now : datetime) (t : Task) :
  status t = COMPLETED ->
  mark_completed now t = (Return tt, with_updated_at now t).
Proof.
  intros H. rewrite mark_completed_run, H.
  destruct t; simpl in *; subst; reflexivity.
Qed.

Lemma mark_completed_again_witness :
  status (with_status COMPLETED sample) = COMPLETED /\
  mark_completed t2 (with_status COMPLETED sample)
    = (Return tt, with_updated_at t2 (with_status COMPLETED sample)).
Proof.
  split; [reflexivity|].
  apply (mark_completed_again t2 (with_status COMPLETED sample)). reflexivity.
Defined.

(** ** Title updates *)

(** C4. [update_title] rejects, with [ValidationError] and without touching
    the task, every title that is empty or whitespace-only or longer than 200
    characters; every other title is stored and [updated_at] refreshed, the
    other fields staying as they were. *)
Theorem update_title_spec (new_title : str) (now : datetime) (t : Task) :
  (whitespace_only new_title = true \/ (200 < len new_title)%nat ->
   exists msg, update_title new_title now t = (Raise (ValidationError msg), t)) /\
  (whitespace_only new_title = false -> (len new_title <= 200)%nat ->
   update_title new_title now t
     = (Return tt, with_updated_at now (with_title new_title t))).
Proof.
  unfold update_title, bind. rewrite blank_test.
  destruct (whitespace_only new_title) eqn:W; simpl.
  - split; [eauto | discriminate].
  - destruct (Nat.ltb_spec 200 (len new_title)) as [L|L]; simpl.
    + split; [eauto | lia].
    + split; [intros [?|?]; [discriminate | lia] | reflexivity].
Qed.

Lemma update_title_spec_witness :
  (exists msg, update_title (lit "   ") t2 sample = (Raise (ValidationError msg), sample)) /\
  update_title (lit "Review spec") t2 sample
    = (Return tt, with_updated_at t2 (with_title (lit "Review spec") sample)).
Proof.
  split.
  - apply (update_title_spec (lit "   ") t2 sample). left. reflexivity.
  - apply (update_title_spec (lit "Review spec") t2 sample).
    + reflexivity.
    + simpl. lia.
Defined.

(** ** Overdue tasks *)

(** C5. [is_overdue] never changes the task; without a due date it answers
    [False]; with one it answers [True] exactly when the current time is
    strictly after the due date and the status is neither COMPLETED nor
    CANCELLED. *)
Theorem is_overdue_spec (now : datetime) (t : Task) :
  after (is_overdue now t) = t /\
  (due_date t = None -> outcome (is_overdue now t) = Return false) /\
  (forall due, due_date t = Some due ->
     exists b, outcome (is_overdue now t) = Return b /\
       (b = true <->
        datetime_lt due now /\ status t <> COMPLETED /\ status t <> CANCELLED)).
Proof.
  unfold is_overdue, bind, get, after, outcome. simpl.
  destruct (due_date t) as [d|]; simpl.
  - split; [reflexivity|]. split; [discriminate|].
    intros due [= <-]. eexists. split; [reflexivity|].
    rewrite datetime_gtb_ltb, !andb_true_iff, !negb_true_iff, datetime_ltb_lt.
    destruct (status t); simpl; intuition congruence.
  - split; [reflexivity|]. split; [reflexivity | discriminate].
Qed.

Lemma is_overdue_spec_witness :
  outcome (is_overdue t2 (with_status CANCELLED sample)) = Return false /\
  exists b, outcome (is_overdue t2 sample) = Return b /\
    (b = true <->
     datetime_lt t1 t2 /\ status sample <> COMPLETED /\ status sample <> CANCELLED).
Proof.
  split; [reflexivity|].
  apply (is_overdue_spec t2 sample). reflexivity.
Defined.

(** ** Dictionary export *)

Lemma is_overdue_total (now : datetime) (t : Task) :
  exists b, is_overdue now t = (Return b, t).
Proof.
  unfold is_overdue, bind, get, ret. simpl.
  destruct (due_date t); eexists; reflexivity.
Qed.

(** C6, as the claim words it, fails: once [set_priority(None)] has run, the
    priority has no [value] and [to_dict] raises instead of returning. *)
Lemma to_dict_without_priority_raises :
  outcome (set_priority upper_excerpt OfNone t2 sample) = Return tt /\
  outcome (to_dict t2 (after (set_priority upper_excerpt OfNone t2 sample)))
    = Raise (AttributeError "value").
Proof. split; reflexivity. Qed.

(** C6, amended. For a task whose priority is a member of the enumeration,
    [to_dict] returns exactly the nine entries below (the status as one of
    the four lowercase codes, the priority as its code in 1..4, the timestamps
    in ISO format, [None] for an absent due date, the answer of [is_overdue])
    and leaves the task as it was. *)
Theorem to_dict_spec (now : datetime) (t : Task) (p : TaskPriority) :
  priority t = OfEnum p ->
  exists overdue,
    outcome (is_overdue now t) = Return overdue /\
    to_dict now t =
      (Return [ ("task_id", PyInt (task_id t));
                ("title", PyStr (title t));
                ("description", PyStr (description t));
                ("status", PyStr (TaskStatus_value (status t)));
                ("priority", PyInt (TaskPriority_value p));
                ("created_at", PyStr (isoformat (created_at t)));
                ("updated_at", PyStr (isoformat (updated_at t)));
                ("due_date", match due_date t with
                             | Some due => PyStr (isoformat due)
                             | None => PyNone
                             end);
                ("is_overdue", PyBool overdue) ]%string, t) /\
    In (TaskStatus_value (status t))
       [lit "pending"; lit "in_progress"; lit "completed"; lit "cancelled"] /\
    1 <= TaskPriority_value p <= 4.
Proof.
  intros Hp. destruct (is_overdue_total now t) as [b Hb].
  exists b. split; [now rewrite Hb|]. split.
  - unfold to_dict, bind, get. simpl. rewrite Hp. simpl. rewrite Hb. reflexivity.
  - split.
    + destruct (status t); simpl; tauto.
    + destruct p; simpl; lia.
Qed.

Lemma to_dict_spec_witness :
  priority sample = OfEnum HIGH /\
  exists d, outcome (to_dict t2 sample) = Return d /\
    keys d = ["task_id"; "title"; "description"; "status"; "priority";
              "created_at"; "updated_at"; "due_date"; "is_overdue"]%string /\
    dict_get d "status" = Some (PyStr (lit "pending")) /\
    dict_get d "priority" = Some (PyInt 3) /\
    dict_get d "due_date" = Some (PyStr (lit "2024-05-18T09:30:00.000250")) /\
    dict_get d "is_overdue" = Some (PyBool true).
Proof.
  split; [reflexivity|].
  destruct (to_dict_spec t2 sample HIGH eq_refl) as [b [Hb [Hd _]]].
  injection Hb as <-.
  eexists. split; [rewrite Hd; reflexivity|].
  repeat split.
Defined.

(** ** Enumeration lookups *)

Lemma str_eqb_eq (a b : str) : str_eqb a b = true <-> a = b.
Proof.
  unfold str_eqb. destruct (list_eq_dec N.eq_dec a b); split; congruence.
Qed.

Lemma TaskPriority_getitem_name (m : TaskPriority) :
  TaskPriority_getitem (TaskPriority_name m) = Return m.
Proof. now destruct m. Qed.

Lemma TaskPriority_call_value (m : TaskPriority) :
  TaskPriority_call (TaskPriority_value m) = Return m.
Proof. now destruct m. Qed.

Lemma TaskPriority_getitem_unknown (name : str) :
  (forall m, name <> TaskPriority_name m) ->
  TaskPriority_getitem name = Raise (KeyError name).
Proof.
  intros H. unfold TaskPriority_getitem.
  repeat match goal with
         | |- context [str_eqb name ?lit] =>
             let E := fresh in
             destruct (str_eqb name lit) eqn:E;
             [apply str_eqb_eq in E | clear E]
         end;
    try reflexivity.
  - now destruct (H LOW).
  - now destruct (H MEDIUM).
  - now destruct (H HIGH).
  - now destruct (H CRITICAL).
Qed.

Lemma TaskPriority_call_unknown (n : Z) :
  (forall m, n <> TaskPriority_value m) ->
  TaskPriority_call n = Raise (ValueError n).
Proof.
  intros H. unfold TaskPriority_call.
  pose proof (H LOW). pose proof (H MEDIUM).
  pose proof (H HIGH). pose proof (H CRITICAL). simpl in *.
  repeat match goal with
         | |- context [n =? ?k] => destruct (Z.eqb_spec n k); [lia|]
         end.
  reflexivity.
Qed.

(** ** Construction *)

Lemma validate_pure (t : Task) : after (validate t) = t.
Proof.
  unfold validate, bind, get, when, after. simpl.
  repeat match goal with
         | |- context [if ?b then _ else _] => destruct b; simpl
         end; reflexivity.
Qed.

Lemma validate_ignores_status (st : TaskStatus) (t : Task) :
  outcome (validate (with_status st t)) = outcome (validate t).
Proof.
  unfold validate, bind, get, when, outcome. simpl.
  repeat match goal with
         | |- context [if ?b then _ else _] => destruct b; simpl
         end; reflexivity.
Qed.

(** Construction from a member of the enumeration: the arguments are stored
    as given and checked by [validate]. *)
Lemma Task_new_member (tbl : N -> str) (id : Z) (ti de : str) (st : TaskStatus)
    (m : TaskPriority) (c up : datetime) (du : option datetime) :
  Task_new tbl id ti de st (OfEnum m) c up du =
  match outcome (validate (mk_Task id ti de st (OfEnum m) c up du)) with
  | Return _ => Return (mk_Task id ti de st (OfEnum m) c up du)
  | Raise e => Raise e
  end.
Proof.
  unfold Task_new, post_init, bind, get. simpl.
  pose proof (validate_pure (mk_Task id ti de st (OfEnum m) c up du)) as P.
  unfold after, outcome in *.
  destruct (validate _) as [[[]|e] s]; simpl in *; congruence.
Qed.

(** Arguments that meet the four rules of [validate] are accepted. *)
Lemma Task_new_valid (tbl : N -> str) (id : Z) (ti de : str) (st : TaskStatus)
    (m : TaskPriority) (c up : datetime) (du : option datetime) :
  whitespace_only ti = false -> (len ti <= 200)%nat -> 0 <= id ->
  (forall due, du = Some due -> ~ datetime_lt due c) ->
  Task_new tbl id ti de st (OfEnum m) c up du
    = Return (mk_Task id ti de st (OfEnum m) c up du).
Proof.
  intros Hw Hl Hi Hd. rewrite Task_new_member.
  unfold validate, bind, get, when, outcome. simpl.
  rewrite blank_test, Hw. simpl.
  destruct (Nat.ltb_spec 200 (len ti)); [lia|]. simpl.
  destruct (Z.ltb_spec id 0); [lia|]. simpl.
  destruct du as [due|]; [|reflexivity].
  destruct (datetime_ltb due c) eqn:E; [|reflexivity].
  apply datetime_ltb_lt in E. now destruct (Hd due eq_refl).
Qed.

(** Construction from a name or a code the enumeration knows is construction
    from the member. *)
Lemma Task_new_name (tbl : N -> str) (id : Z) (ti de s : str) (st : TaskStatus)
    (m : TaskPriority) (c up : datetime) (du : option datetime) :
  upper tbl s = TaskPriority_name m ->
  Task_new tbl id ti de st (OfStr s) c up du
    = Task_new tbl id ti de st (OfEnum m) c up du.
Proof.
  intros H. unfold Task_new, post_init, bind, get, lift. simpl.
  now rewrite H, TaskPriority_getitem_name.
Qed.

Lemma Task_new_code (tbl : N -> str) (id : Z) (ti de : str) (st : TaskStatus)
    (m : TaskPriority) (c up : datetime) (du : option datetime) :
  Task_new tbl id ti de st (OfInt (TaskPriority_value m)) c up du
    = Task_new tbl id ti de st (OfEnum m) c up du.
Proof.
  unfold Task_new, post_init, bind, get, lift. simpl.
  now rewrite TaskPriority_call_value.
Qed.

Lemma Task_new_None (tbl : N -> str) (id : Z) (ti de : str) (st : TaskStatus)
    (c up : datetime) (du : option datetime) :
  Task_new tbl id ti de st OfNone c up du
    = Task_new tbl id ti de st (OfEnum MEDIUM) c up du.
Proof. reflexivity. Qed.

(** C3, as the claim words it, fails: an unknown name or code is rejected by
    the enumeration lookup with [KeyError] or [ValueError], which is not a
    [ValidationError]. *)
Lemma unknown_priority_is_not_ValidationError :
  unrecognized upper_excerpt (OfStr (lit "urgent")) /\
  Task_new upper_excerpt 1 (lit "Write spec") [] PENDING (OfStr (lit "urgent")) t0 t0 None
    = Raise (KeyError (lit "URGENT")) /\
  unrecognized upper_excerpt (OfInt 7) /\
  Task_new upper_excerpt 1 (lit "Write spec") [] PENDING (OfInt 7) t0 t0 None
    = Raise (ValueError 7) /\
  (forall msg,
     Task_new upper_excerpt 1 (lit "Write spec") [] PENDING (OfStr (lit "urgent")) t0 t0 None
       <> Raise (ValidationError msg)) /\
  (forall msg,
     Task_new upper_excerpt 1 (lit "Write spec") [] PENDING (OfInt 7) t0 t0 None
       <> Raise (ValidationError msg)).
Proof.
  repeat split; try discriminate.
  - intros m; destruct m; discriminate.
  - intros m; destruct m; discriminate.
Qed.

(** C3, amended. Construction fails for every string whose uppercase form
    is no priority name and for every integer that is none of 1, 2, 3, 4,
    whatever the other arguments are; the exception is the lookup's own,
    [KeyError] with the uppercased string or [ValueError] with the integer,
    not [ValidationError]. *)
Theorem unknown_priority_raises_lookup_error (tbl : N -> str) (id : Z)
    (ti de : str) (st : TaskStatus) (p : priority_value) (c up : datetime)
    (du : option datetime) :
  unrecognized tbl p ->
  Task_new tbl id ti de st p c up du = Raise (lookup_error tbl p) /\
  is_ValidationError (lookup_error tbl p) = false.
Proof.
  destruct p as [m|n|s|]; simpl; intros H; try contradiction.
  - split; [|reflexivity].
    unfold Task_new, post_init, bind, get, lift. simpl.
    now rewrite (TaskPriority_call_unknown n H).
  - split; [|reflexivity].
    unfold Task_new, post_init, bind, get, lift. simpl.
    now rewrite (TaskPriority_getitem_unknown _ H).
Qed.

Lemma unknown_priority_raises_lookup_error_witness :
  unrecognized upper_excerpt (OfStr (lit "Highest")) /\
  Task_new upper_excerpt 1 (lit "Write spec") [] PENDING (OfStr (lit "Highest")) t0 t0 None
    = Raise (KeyError (lit "HIGHEST")) /\
  Task_new upper_excerpt 1 (lit "Write spec") [] PENDING (OfInt 0) t0 t0 None
    = Raise (ValueError 0).
Proof.
  assert (Hs : unrecognized upper_excerpt (OfStr (lit "Highest")))
    by (intros m; destruct m; discriminate).
  assert (Hn : unrecognized upper_excerpt (OfInt 0))
    by (intros m; destruct m; discriminate).
  split; [exact Hs|]. split.
  - apply (unknown_priority_raises_lookup_error upper_excerpt 1 (lit "Write spec") []
             PENDING (OfStr (lit "Highest")) t0 t0 None Hs).
  - apply (unknown_priority_raises_lookup_error upper_excerpt 1 (lit "Write spec") []
             PENDING (OfInt 0) t0 t0 None Hn).
Defined.

(** C7. The constructor reaches the same result from ["high"], ["HIGH"],
    [3] and [TaskPriority.HIGH], the other arguments being equal, and the task
    it returns has priority HIGH and those arguments as its other fields;
    [None] gives what [TaskPriority.MEDIUM] gives, with priority MEDIUM. *)
Theorem priority_normalization_independent (tbl : N -> str) (id : Z)
    (ti de : str) (st : TaskStatus) (c up : datetime) (du : option datetime) :
  Task_new tbl id ti de st (OfStr (lit "high")) c up du
    = Task_new tbl id ti de st (OfEnum HIGH) c up du /\
  Task_new tbl id ti de st (OfStr (lit "HIGH")) c up du
    = Task_new tbl id ti de st (OfEnum HIGH) c up du /\
  Task_new tbl id ti de st (OfInt 3) c up du
    = Task_new tbl id ti de st (OfEnum HIGH) c up du /\
  (forall t, Task_new tbl id ti de st (OfEnum HIGH) c up du = Return t ->
             t = mk_Task id ti de st (OfEnum HIGH) c up du) /\
  Task_new tbl id ti de st OfNone c up du
    = Task_new tbl id ti de st (OfEnum MEDIUM) c up du /\
  (forall t, Task_new tbl id ti de st (OfEnum MEDIUM) c up du = Return t ->
             t = mk_Task id ti de st (OfEnum MEDIUM) c up du).
Proof.
  assert (member : forall m t,
             Task_new tbl id ti de st (OfEnum m) c up du = Return t ->
             t = mk_Task id ti de st (OfEnum m) c up du).
  { intros m t. rewrite Task_new_member.
    destruct (outcome _); congruence. }
  repeat apply conj.
  - now apply Task_new_name.
  - now apply Task_new_name.
  - apply (Task_new_code tbl id ti de st HIGH).
  - apply member.
  - apply Task_new_None.
  - apply member.
Qed.

Lemma priority_normalization_independent_witness :
  Task_new upper_excerpt 1 (lit "Write spec") [] PENDING (OfStr (lit "high")) t0 t0 (Some t1)
    = Return sample /\
  Task_new upper_excerpt 1 (lit "Write spec") [] PENDING (OfInt 3) t0 t0 (Some t1)
    = Return sample /\
  Task_new upper_excerpt 1 (lit "Write spec") [] PENDING (OfEnum HIGH) t0 t0 (Some t1)
    = Return sample.
Proof.
  destruct (priority_normalization_independent upper_excerpt 1 (lit "Write spec") []
              PENDING t0 t0 (Some t1)) as [E1 [_ [E3 _]]].
  rewrite E1, E3. repeat split.
Defined.

(** ** Priority updates *)

(** C9. [set_priority(None)] stores [None] as the priority and refreshes
    [updated_at]: the task is left with a priority that is no member of the
    enumeration, where [__post_init__] would have stored MEDIUM. *)
Theorem set_priority_None (tbl : N -> str) (now : datetime) (t : Task) :
  set_priority tbl OfNone now t
    = (Return tt, with_updated_at now (with_priority OfNone t)) /\
  priority (after (set_priority tbl OfNone now t)) = OfNone /\
  updated_at (after (set_priority tbl OfNone now t)) = now /\
  (forall m, priority (after (set_priority tbl OfNone now t)) <> OfEnum m) /\
  priority (after (post_init tbl (with_priority OfNone t))) = OfEnum MEDIUM.
Proof.
  repeat split.
  - discriminate.
  - unfold post_init, bind, get, after. simpl.
    pose proof (validate_pure
                  (with_priority (OfEnum MEDIUM) (with_priority OfNone t))) as P.
    unfold after in P.
    destruct (validate _) as [[[]|e] s]; simpl in *; now subst.
Qed.

(** ** Initial status *)

Lemma post_init_ignores_status (tbl : N -> str) (st : TaskStatus) (t : Task) :
  post_init tbl (with_status st t)
    = (outcome (post_init tbl t), with_status st (after (post_init tbl t))).
Proof.
  assert (V : forall t', validate (with_status st t')
                         = (outcome (validate t'), with_status st t')).
  { intros t'. rewrite (surjective_pairing (validate (with_status st t'))).
    f_equal.
    - apply validate_ignores_status.
    - apply (validate_pure (with_status st t')). }
  assert (W : forall t', validate t' = (outcome (validate t'), t')).
  { intros t'. rewrite (surjective_pairing (validate t')) at 1.
    f_equal. apply validate_pure. }
  assert (P : forall v, validate (with_priority v (with_status st t))
                        = (fst (validate (with_priority v t)),
                           with_status st (snd (validate (with_priority v t))))).
  { intros v.
    change (with_priority v (with_status st t))
      with (with_status st (with_priority v t)).
    rewrite V, (W (with_priority v t)). reflexivity. }
  unfold post_init, bind, get, lift, outcome, after. simpl.
  destruct (priority t) as [m|n|s|]; simpl.
  - rewrite V, (W t). reflexivity.
  - destruct (TaskPriority_call n) as [m|e]; simpl; [apply P | reflexivity].
  - destruct (TaskPriority_getitem (upper tbl s)) as [m|e]; simpl;
      [apply P | reflexivity].
  - apply P.
Qed.

(** C10. The constructor never looks at the status: arguments it accepts
    with the default PENDING it accepts with any status, and the task it
    returns carries that status. *)
Theorem constructor_accepts_any_status (tbl : N -> str) (id : Z) (ti de : str)
    (p : priority_value) (c up : datetime) (du : option datetime)
    (st : TaskStatus) (t : Task) :
  Task_new tbl id ti de PENDING p c up du = Return t ->
  Task_new tbl id ti de st p c up du = Return (with_status st t) /\
  status (with_status st t) = st.
Proof.
  intros H. split; [|reflexivity].
  unfold Task_new in *.
  change (mk_Task id ti de st p c up du)
    with (with_status st (mk_Task id ti de PENDING p c up du)).
  rewrite post_init_ignores_status. unfold outcome, after.
  destruct (post_init tbl _) as [[[]|e] s]; simpl; congruence.
Qed.

Lemma constructor_accepts_any_status_witness :
  Task_new upper_excerpt 1 (lit "Write spec") [] PENDING (OfStr (lit "high")) t0 t0 (Some t1)
    = Return sample /\
  Task_new upper_excerpt 1 (lit "Write spec") [] COMPLETED (OfStr (lit "high")) t0 t0 (Some t1)
    = Return (with_status COMPLETED sample) /\
  status (with_status COMPLETED sample) = COMPLETED.
Proof.
  split; [reflexivity|].
  apply (constructor_accepts_any_status upper_excerpt 1 (lit "Write spec") []
           (OfStr (lit "high")) t0 t0 (Some t1) COMPLETED sample).
  reflexivity.
Defined.

(** ** The examples of the specification *)

Example new_negative_id :
  Task_new upper_excerpt (-1) (lit "x") [] PENDING (OfEnum MEDIUM) t0 t0 None
    = Raise (ValidationError "Task ID must be non-negative").
Proof. reflexivity. Qed.

Example new_long_title :
  Task_new upper_excerpt 1 (repeat 0x78%N 201) [] PENDING (OfEnum MEDIUM) t0 t0 None
    = Raise (ValidationError "Title cannot exceed 200 characters").
Proof. vm_compute. reflexivity. Qed.

Example overdue_until_completed :
  outcome (is_overdue t2 sample) = Return true /\
  outcome ((mark_completed t2 ;; is_overdue t2) sample) = Return false.
Proof. split; reflexivity. Qed.

Example dotless_i_is_uppercased :
  Task_new upper_excerpt 1 (lit "Write spec") [] PENDING
           (OfStr [0x68; 0x131; 0x67; 0x68]%N) t0 t0 (Some t1)
    = Return sample.
Proof. reflexivity. Qed.

(** ** The order on datetimes, field by field *)

Lemma datetime_lt_fields (a b : datetime) :
  datetime_lt a b <->
  (year a < year b \/ year a = year b /\
   (month a < month b \/ month a = month b /\
    (day a < day b \/ day a = day b /\
     (hour a < hour b \/ hour a = hour b /\
      (minute a < minute b \/ minute a = minute b /\
       (second a < second b \/ second a = second b /\
        microsecond a < microsecond b))))))%N.
Proof.
  unfold datetime_lt, datetime_compare.
  repeat match goal with
         | |- context [(?x ?= ?y)%N] =>
             destruct (N.compare_spec x y); try unfold lex at 1
         end;
    (split; intros G; [try discriminate G; lia | try reflexivity; exfalso; lia]).
Qed.

Lemma datetime_lt_trans (a b c : datetime) :
  datetime_lt a b -> datetime_lt b c -> datetime_lt a c.
Proof. rewrite !datetime_lt_fields. lia. Qed.

(** [a <= b <= c] gives [a <= c], written with the strict order. *)
Lemma datetime_le_trans (a b c : datetime) :
  ~ datetime_lt b a -> ~ datetime_lt c b -> ~ datetime_lt c a.
Proof. rewrite !datetime_lt_fields. lia. Qed.

Lemma datetime_lt_le_trans (a b c : datetime) :
  datetime_lt a b -> ~ datetime_lt c b -> datetime_lt a c.
Proof. rewrite !datetime_lt_fields. lia. Qed.

(** ** Validation *)

Lemma validate_run (t : Task) : validate t = (outcome (validate t), t).
Proof.
  rewrite (surjective_pairing (validate t)) at 1.
  f_equal. apply validate_pure.
Qed.

Lemma validate_cases (t : Task) :
  (outcome (validate t) = Return tt <-> valid t) /\
  (forall e, outcome (validate t) = Raise e -> is_ValidationError e = true).
Proof.
  unfold valid, validate, bind, get, when, outcome. simpl.
  rewrite blank_test.
  destruct (whitespace_only (title t)); simpl.
  { split; [split; [discriminate | intros [? _]; discriminate]|].
    now intros e [= <-]. }
  destruct (Nat.ltb_spec 200 (len (title t))); simpl.
  { split; [split; [discriminate | intros (_ & ? & _); lia]|].
    now intros e [= <-]. }
  destruct (Z.ltb_spec (task_id t) 0); simpl.
  { split; [split; [discriminate | intros (_ & _ & ? & _); lia]|].
    now intros e [= <-]. }
  destruct (due_date t) as [due|]; simpl.
  - destruct (datetime_ltb due (created_at t)) eqn:E; simpl.
    + apply datetime_ltb_lt in E.
      split; [split; [discriminate|]|now intros e [= <-]].
      intros (_ & _ & _ & D). now destruct (D due eq_refl).
    + split; [|discriminate]. split; [|reflexivity].
      intros _. repeat split; try assumption; try lia.
      intros d [= <-] L. apply datetime_ltb_lt in L. congruence.
  - split; [|discriminate]. split; [|reflexivity].
    intros _. repeat split; try assumption; try lia. discriminate.
Qed.

Lemma validate_ok (t : Task) : outcome (validate t) = Return tt <-> valid t.
Proof. apply validate_cases. Qed.

(** X1. [validate] reads the task without changing it, passes exactly when the
    four rules hold (a title that is not whitespace-only and has at most 200
    characters, a non-negative id, a due date not before the creation date)
    and raises nothing but [ValidationError]. *)
Theorem validate_spec (t : Task) :
  after (validate t) = t /\
  (outcome (validate t) = Return tt <-> valid t) /\
  (forall e, outcome (validate t) = Raise e -> is_ValidationError e = true).
Proof.
  split; [apply validate_pure | apply validate_cases].
Qed.

Lemma validate_spec_witness :
  outcome (validate sample) = Return tt /\
  is_ValidationError (ValidationError "Task ID must be non-negative") = true.
Proof.
  split.
  - apply (validate_spec sample). repeat split; simpl; try lia.
    intros due [= <-]. discriminate.
  - apply (validate_spec (mk_Task (-3) (lit "x") [] PENDING (OfEnum LOW) t0 t0 None)).
    reflexivity.
Defined.

(** ** Enumeration lookups, both ways *)

Lemma TaskPriority_call_inv (n : Z) (m : TaskPriority) :
  TaskPriority_call n = Return m -> n = TaskPriority_value m.
Proof.
  unfold TaskPriority_call.
  repeat match goal with
         | |- context [n =? ?k] => destruct (Z.eqb_spec n k)
         end; intros [= <-]; assumption.
Qed.

Lemma TaskPriority_getitem_inv (s : str) (m : TaskPriority) :
  TaskPriority_getitem s = Return m -> s = TaskPriority_name m.
Proof.
  unfold TaskPriority_getitem.
  repeat match goal with
         | |- context [str_eqb s ?l] =>
             let E := fresh in
             destruct (str_eqb s l) eqn:E; [apply str_eqb_eq in E|]
         end; intros [= <-]; assumption.
Qed.

(** X2. Looking a member up by its value or by its name gives it back, and
    nothing else is found: [TaskPriority(n)] is [m] exactly when [n] is the
    value of [m], [TaskPriority[s]] is [m] exactly when [s] is the name of
    [m]. *)
Theorem TaskPriority_lookup_round_trip (m : TaskPriority) :
  (forall n, TaskPriority_call n = Return m <-> n = TaskPriority_value m) /\
  (forall s, TaskPriority_getitem s = Return m <-> s = TaskPriority_name m).
Proof.
  split.
  - intros n. split; [apply TaskPriority_call_inv|].
    intros ->. apply TaskPriority_call_value.
  - intros s. split; [apply TaskPriority_getitem_inv|].
    intros ->. apply TaskPriority_getitem_name.
Qed.

Lemma TaskPriority_value_inj (m m' : TaskPriority) :
  TaskPriority_value m = TaskPriority_value m' -> m = m'.
Proof. destruct m, m'; simpl; intros H; try reflexivity; discriminate H. Qed.

Lemma TaskStatus_value_inj (s s' : TaskStatus) :
  TaskStatus_value s = TaskStatus_value s' -> s = s'.
Proof. destruct s, s'; intros H; try reflexivity; discriminate H. Qed.

Lemma TaskPriority_lookup_round_trip_witness :
  TaskPriority_call 4 = Return CRITICAL /\
  lit "LOW" = TaskPriority_name LOW.
Proof.
  split.
  - apply (TaskPriority_lookup_round_trip CRITICAL). reflexivity.
  - apply (TaskPriority_lookup_round_trip LOW). reflexivity.
Defined.

(** ** What the constructor accepts *)

Lemma post_init_run (tbl : N -> str) (t : Task) (m : TaskPriority) :
  normalizes_to tbl (priority t) m ->
  post_init tbl t
    = (outcome (validate (with_priority (OfEnum m) t)),
       with_priority (OfEnum m) t).
Proof.
  unfold post_init, bind, get, lift. simpl.
  destruct t as [id ti de st p c up du]; simpl.
  destruct p as [m'|n|s|]; simpl; intros H; subst.
  - apply (validate_run (mk_Task id ti de st (OfEnum m) c up du)).
  - rewrite TaskPriority_call_value. simpl.
    apply (validate_run (mk_Task id ti de st (OfEnum m) c up du)).
  - rewrite H, TaskPriority_getitem_name. simpl.
    apply (validate_run (mk_Task id ti de st (OfEnum m) c up du)).
  - apply (validate_run (mk_Task id ti de st (OfEnum MEDIUM) c up du)).
Qed.

Lemma post_init_member (tbl : N -> str) (t : Task) :
  outcome (post_init tbl t) = Return tt ->
  exists m, normalizes_to tbl (priority t) m.
Proof.
  unfold post_init, bind, get, lift, outcome. simpl.
  destruct (priority t) as [m'|n|s|]; simpl.
  - eauto.
  - destruct (TaskPriority_call n) as [m|e] eqn:E; simpl; [|discriminate].
    intros _. exists m. now apply TaskPriority_call_inv.
  - destruct (TaskPriority_getitem (upper tbl s)) as [m|e] eqn:E; simpl;
      [|discriminate].
    intros _. exists m. now apply TaskPriority_getitem_inv.
  - eauto.
Qed.

Lemma valid_with_priority (v : priority_value) (t : Task) :
  valid (with_priority v t) <-> valid t.
Proof. reflexivity. Qed.

Lemma Task_new_inv (tbl : N -> str) (id : Z) (ti de : str) (st : TaskStatus)
    (p : priority_value) (c up : datetime) (du : option datetime) (t : Task) :
  Task_new tbl id ti de st p c up du = Return t ->
  exists m, normalizes_to tbl p m /\
            t = mk_Task id ti de st (OfEnum m) c up du /\
            valid t.
Proof.
  unfold Task_new. intros H.
  destruct (post_init_member tbl (mk_Task id ti de st p c up du)) as [m Hm].
  { unfold outcome. destruct (post_init tbl _) as [[[]|e] s];
      [reflexivity | discriminate]. }
  exists m. split; [exact Hm|].
  rewrite (post_init_run tbl _ m Hm) in H. simpl in H.
  destruct (outcome (validate _)) as [[]|e] eqn:V; [|discriminate].
  injection H as <-. split; [reflexivity|].
  now apply validate_ok in V.
Qed.

Lemma Task_new_intro (tbl : N -> str) (id : Z) (ti de : str) (st : TaskStatus)
    (p : priority_value) (c up : datetime) (du : option datetime)
    (m : TaskPriority) :
  normalizes_to tbl p m ->
  valid (mk_Task id ti de st (OfEnum m) c up du) ->
  Task_new tbl id ti de st p c up du
    = Return (mk_Task id ti de st (OfEnum m) c up du).
Proof.
  unfold Task_new. intros Hm V.
  rewrite (post_init_run tbl (mk_Task id ti de st p c up du) m Hm).
  change (with_priority (OfEnum m) (mk_Task id ti de st p c up du))
    with (mk_Task id ti de st (OfEnum m) c up du).
  apply validate_ok in V. now rewrite V.
Qed.

Lemma to_dict_succeeds (now : datetime) (t : Task) :
  is_member (priority t) = true -> succeeds (to_dict now t).
Proof.
  intros H. destruct (is_overdue_total now t) as [b Hb].
  unfold succeeds, outcome, to_dict, bind, get. simpl.
  destruct (priority t); try discriminate H. simpl. rewrite Hb. simpl. eauto.
Qed.

(** X3. The constructor returns a task exactly when the priority argument
    denotes a member and the arguments meet the four rules of [validate]; the
    task holds the arguments as given, with the member as its priority. *)
Theorem Task_new_spec (tbl : N -> str) (id : Z) (ti de : str) (st : TaskStatus)
    (p : priority_value) (c up : datetime) (du : option datetime) (t : Task) :
  Task_new tbl id ti de st p c up du = Return t <->
  exists m, normalizes_to tbl p m /\
            t = mk_Task id ti de st (OfEnum m) c up du /\
            valid t.
Proof.
  split; [apply Task_new_inv|].
  intros (m & Hm & -> & V). now apply Task_new_intro.
Qed.

Lemma Task_new_spec_witness :
  Task_new upper_excerpt 7 (lit "Ship it") (lit "soon") IN_PROGRESS
           (OfStr (lit "Critical")) t0 t1 None
    = Return (mk_Task 7 (lit "Ship it") (lit "soon") IN_PROGRESS
                      (OfEnum CRITICAL) t0 t1 None).
Proof.
  apply (Task_new_spec upper_excerpt 7 (lit "Ship it") (lit "soon") IN_PROGRESS
           (OfStr (lit "Critical")) t0 t1 None).
  exists CRITICAL. split; [reflexivity|]. split; [reflexivity|].
  repeat split; simpl; try lia. discriminate.
Defined.

(** X4. A task the constructor returned passes [validate], holds a member of the
    enumeration as its priority and can be exported by [to_dict]. *)
Theorem constructed_task_is_sound (tbl : N -> str) (id : Z) (ti de : str)
    (st : TaskStatus) (p : priority_value) (c up : datetime)
    (du : option datetime) (t : Task) :
  Task_new tbl id ti de st p c up du = Return t ->
  validate t = (Return tt, t) /\
  is_member (priority t) = true /\
  (forall now, succeeds (to_dict now t)).
Proof.
  intros H. apply Task_new_inv in H. destruct H as (m & _ & -> & V).
  split; [|split].
  - apply validate_ok in V. rewrite validate_run. now rewrite V.
  - reflexivity.
  - intros now. now apply to_dict_succeeds.
Qed.

Lemma constructed_task_is_sound_witness :
  validate sample = (Return tt, sample) /\
  is_member (priority sample) = true /\
  (forall now, succeeds (to_dict now sample)).
Proof.
  apply (constructed_task_is_sound upper_excerpt 1 (lit "Write spec") [] PENDING
           (OfInt 3) t0 t0 (Some t1) sample).
  reflexivity.
Defined.

(** X5. A task is not overdue at the time it was created, nor at any earlier
    time: the constructor rejects a due date before the creation date. *)
Theorem constructed_task_not_overdue_at_creation (tbl : N -> str) (id : Z)
    (ti de : str) (st : TaskStatus) (p : priority_value) (c up : datetime)
    (du : option datetime) (t : Task) (now : datetime) :
  Task_new tbl id ti de st p c up du = Return t ->
  ~ datetime_lt c now ->
  created_at t = c /\ outcome (is_overdue now t) = Return false.
Proof.
  intros H Hnow. apply Task_new_inv in H. destruct H as (m & _ & -> & V).
  split; [reflexivity|].
  destruct V as (_ & _ & _ & D). simpl in D.
  unfold is_overdue, bind, get, outcome. simpl.
  destruct du as [due|]; [|reflexivity]. simpl.
  rewrite datetime_gtb_ltb.
  destruct (datetime_ltb due now) eqn:E; [|reflexivity].
  apply datetime_ltb_lt in E.
  destruct (datetime_le_trans now c due Hnow (D due eq_refl) E).
Qed.

Lemma constructed_task_not_overdue_at_creation_witness :
  created_at sample = t0 /\ outcome (is_overdue t0 sample) = Return false.
Proof.
  apply (constructed_task_not_overdue_at_creation upper_excerpt 1
           (lit "Write spec") [] PENDING (OfEnum HIGH) t0 t0 (Some t1) sample t0).
  - reflexivity.
  - discriminate.
Defined.

(** X6. A task built from an id and a title alone is accepted exactly when the
    title is not whitespace-only, has at most 200 characters and the id is not
    negative, whatever the clock says; it is PENDING with priority MEDIUM and,
    having no due date, is never overdue. *)
Theorem Task_default_spec (tbl : N -> str) (now1 now2 : datetime) (id : Z)
    (ti : str) :
  (Task_default tbl now1 now2 id ti
     = Return (mk_Task id ti [] PENDING (OfEnum MEDIUM) now1 now2 None)
   <-> whitespace_only ti = false /\ (len ti <= 200)%nat /\ 0 <= id) /\
  (forall t, Task_default tbl now1 now2 id ti = Return t ->
     t = mk_Task id ti [] PENDING (OfEnum MEDIUM) now1 now2 None /\
     forall now, outcome (is_overdue now t) = Return false).
Proof.
  unfold Task_default. split.
  - split.
    + intros H. apply Task_new_inv in H. destruct H as (m & _ & _ & V).
      destruct V as (V1 & V2 & V3 & _). auto.
    + intros (V1 & V2 & V3).
      apply (Task_new_intro tbl id ti [] PENDING (OfEnum MEDIUM) now1 now2 None
               MEDIUM eq_refl).
      repeat split; try assumption. discriminate.
  - intros t H. apply Task_new_inv in H. destruct H as (m & Hm & -> & _).
    simpl in Hm. subst m. split; reflexivity.
Qed.

Lemma Task_default_spec_witness :
  Task_default upper_excerpt t0 t1 4 (lit "Water plants")
    = Return (mk_Task 4 (lit "Water plants") [] PENDING (OfEnum MEDIUM) t0 t1 None).
Proof.
  apply (Task_default_spec upper_excerpt t0 t1 4 (lit "Water plants")).
  repeat split; simpl; lia.
Defined.

(** ** One call *)

Lemma update_title_run (s : str) (now : datetime) (t : Task) :
  update_title s now t =
  if whitespace_only s
  then (Raise (ValidationError "Title cannot be empty"), t)
  else if (200 <? len s)%nat
       then (Raise (ValidationError "Title cannot exceed 200 characters"), t)
       else (Return tt, with_updated_at now (with_title s t)).
Proof.
  unfold update_title, bind. rewrite blank_test.
  destruct (whitespace_only s); simpl; [reflexivity|].
  destruct (200 <? len s)%nat; reflexivity.
Qed.

Lemma update_description_run (s : str) (now : datetime) (t : Task) :
  update_description s now t
    = (Return tt, with_updated_at now (with_description s t)).
Proof. reflexivity. Qed.

Lemma set_priority_run (tbl : N -> str) (p : priority_value) (now : datetime)
    (t : Task) :
  set_priority tbl p now t =
  match p with
  | OfStr s =>
      match TaskPriority_getitem (upper tbl s) with
      | Return m => (Return tt, with_updated_at now (with_priority (OfEnum m) t))
      | Raise e => (Raise e, t)
      end
  | OfInt n =>
      match TaskPriority_call n with
      | Return m => (Return tt, with_updated_at now (with_priority (OfEnum m) t))
      | Raise e => (Raise e, t)
      end
  | _ => (Return tt, with_updated_at now (with_priority p t))
  end.
Proof.
  unfold set_priority, bind, lift. destruct p as [m|n|s|]; simpl.
  - reflexivity.
  - now destruct (TaskPriority_call n).
  - now destruct (TaskPriority_getitem (upper tbl s)).
  - reflexivity.
Qed.

(** Splits a call into the ways it can run. *)
Ltac call_cases tbl c t :=
  let s := fresh "s" in
  let p := fresh "p" in
  destruct c as [ | | |s|s|p]; simpl run_call;
  [ rewrite mark_in_progress_run; destruct (status t) eqn:?
  | rewrite mark_completed_run; destruct (status t) eqn:?
  | rewrite mark_cancelled_run; destruct (status t) eqn:?
  | rewrite update_title_run; destruct (whitespace_only s) eqn:?;
    [|destruct (Nat.ltb_spec 200 (len s))]
  | rewrite update_description_run
  | rewrite set_priority_run;
    let m := fresh "m" in
    let n := fresh "n" in
    let s' := fresh "s" in
    destruct p as [m|n|s'|];
    [ | destruct (TaskPriority_call n) eqn:?
      | destruct (TaskPriority_getitem (upper tbl s')) eqn:? | ] ].

(** X7. Every mutating method is all or nothing: a call that raises, whatever it
    raises, leaves the task exactly as it was. *)
Theorem failed_call_keeps_task (tbl : N -> str) (c : call) (now : datetime)
    (t : Task) (e : exception) :
  outcome (run_call tbl c now t) = Raise e ->
  after (run_call tbl c now t) = t.
Proof.
  unfold outcome, after.
  call_cases tbl c t; simpl; intros G; solve [reflexivity | discriminate G].
Qed.

Lemma failed_call_keeps_task_witness :
  outcome (run_call upper_excerpt (SetPriority (OfStr (lit "urgent"))) t2 sample)
    = Raise (KeyError (lit "URGENT")) /\
  after (run_call upper_excerpt (SetPriority (OfStr (lit "urgent"))) t2 sample)
    = sample.
Proof.
  split; [reflexivity|].
  apply (failed_call_keeps_task upper_excerpt
           (SetPriority (OfStr (lit "urgent"))) t2 sample
           (KeyError (lit "URGENT"))).
  reflexivity.
Defined.

(** X8. Every mutating method that returns has set [updated_at] to the time of
    the call and left [task_id], [created_at] and [due_date] alone. *)
Theorem successful_call_refreshes_updated_at (tbl : N -> str) (c : call)
    (now : datetime) (t : Task) :
  outcome (run_call tbl c now t) = Return tt ->
  updated_at (after (run_call tbl c now t)) = now /\
  task_id (after (run_call tbl c now t)) = task_id t /\
  created_at (after (run_call tbl c now t)) = created_at t /\
  due_date (after (run_call tbl c now t)) = due_date t.
Proof.
  unfold outcome, after.
  call_cases tbl c t; simpl; intros G;
    solve [repeat split | discriminate G].
Qed.

Lemma successful_call_refreshes_updated_at_witness :
  updated_at (after (run_call upper_excerpt (UpdateDescription (lit "draft"))
                              t2 sample)) = t2.
Proof.
  apply (successful_call_refreshes_updated_at upper_excerpt
           (UpdateDescription (lit "draft")) t2 sample).
  reflexivity.
Defined.

(** ** Sequences of calls: what they keep *)

Section Invariant.

Variable tbl : N -> str.
Variable P : Task -> Prop.
Hypothesis step : forall c now t, P t -> P (after (run_call tbl c now t)).

Lemma run_calls_keep (cs : list (call * datetime)) (t : Task) :
  P t -> P (run_calls tbl cs t).
Proof.
  revert t. induction cs as [|[c now] cs IH]; simpl; intros t H.
  - exact H.
  - apply IH, step, H.
Qed.

End Invariant.

(** X9. No sequence of method calls changes [task_id], [created_at] or
    [due_date]. *)
Theorem calls_keep_identity (tbl : N -> str) (cs : list (call * datetime))
    (t : Task) :
  task_id (run_calls tbl cs t) = task_id t /\
  created_at (run_calls tbl cs t) = created_at t /\
  due_date (run_calls tbl cs t) = due_date t.
Proof.
  apply (run_calls_keep tbl
           (fun t' => task_id t' = task_id t /\ created_at t' = created_at t /\
                      due_date t' = due_date t)); [|auto].
  intros c now t' (H1 & H2 & H3). rewrite <- H1, <- H2, <- H3.
  unfold after. call_cases tbl c t'; simpl; auto.
Qed.

(** X10. A task that passes [validate] still passes it after any sequence of
    method calls, failed ones included. *)
Theorem calls_keep_valid (tbl : N -> str) (cs : list (call * datetime))
    (t : Task) :
  valid t -> valid (run_calls tbl cs t).
Proof.
  apply (run_calls_keep tbl valid). clear t.
  intros c now t V. unfold after.
  call_cases tbl c t; simpl; try exact V.
  destruct V as (_ & _ & V3 & V4).
  repeat split; simpl; assumption.
Qed.

Lemma calls_keep_valid_witness :
  valid sample /\
  valid (run_calls upper_excerpt
           [(UpdateTitle (lit "  "), t1); (MarkCompleted, t1);
            (UpdateTitle (lit "Review spec"), t2); (SetPriority OfNone, t2)]
           sample).
Proof.
  assert (V : valid sample).
  { repeat split; simpl; try lia. intros due [= <-]. discriminate. }
  split; [exact V|].
  apply (calls_keep_valid upper_excerpt _ sample V).
Defined.

(** X11. COMPLETED and CANCELLED are final: once a task has one of them, no
    sequence of method calls gives it another status. *)
Theorem terminal_status_is_kept (tbl : N -> str) (cs : list (call * datetime))
    (t : Task) :
  status t = COMPLETED \/ status t = CANCELLED ->
  status (run_calls tbl cs t) = status t.
Proof.
  intros H.
  assert (K : forall s, status t = s -> s = COMPLETED \/ s = CANCELLED ->
                        status (run_calls tbl cs t) = s).
  { intros s Hs Ht. revert Hs.
    apply (run_calls_keep tbl (fun t' => status t' = s)).
    intros c now t' Hs. unfold after.
    call_cases tbl c t'; simpl; try exact Hs;
      destruct Ht; congruence. }
  now apply K.
Qed.

Lemma terminal_status_is_kept_witness :
  status (run_calls upper_excerpt
            [(MarkInProgress, t1); (MarkCancelled, t1); (MarkCompleted, t2)]
            (with_status COMPLETED sample))
    = COMPLETED.
Proof.
  apply (terminal_status_is_kept upper_excerpt
           [(MarkInProgress, t1); (MarkCancelled, t1); (MarkCompleted, t2)]
           (with_status COMPLETED sample)).
  left. reflexivity.
Defined.

(** X12. No method puts a task back to PENDING: a task that has left PENDING
    never has that status again. *)
Theorem status_never_back_to_pending (tbl : N -> str)
    (cs : list (call * datetime)) (t : Task) :
  status t <> PENDING -> status (run_calls tbl cs t) <> PENDING.
Proof.
  apply (run_calls_keep tbl (fun t' => status t' <> PENDING)). clear t.
  intros c now t H. unfold after.
  call_cases tbl c t; simpl; solve [exact H | congruence | discriminate].
Qed.

Lemma status_never_back_to_pending_witness :
  status (run_calls upper_excerpt [(MarkCancelled, t1); (MarkInProgress, t2)]
            (with_status IN_PROGRESS sample))
    <> PENDING.
Proof.
  apply (status_never_back_to_pending upper_excerpt
           [(MarkCancelled, t1); (MarkInProgress, t2)]
           (with_status IN_PROGRESS sample)).
  discriminate.
Defined.

(** X13. As long as [set_priority] is called with arguments of its declared type,
    the priority stays a member of the enumeration and [to_dict] keeps
    returning, whatever calls are made and whichever of them fail. *)
Theorem typed_calls_keep_priority_member (tbl : N -> str)
    (cs : list (call * datetime)) (t : Task) :
  is_member (priority t) = true ->
  Forall (fun c => well_typed (fst c)) cs ->
  is_member (priority (run_calls tbl cs t)) = true /\
  (forall now, succeeds (to_dict now (run_calls tbl cs t))).
Proof.
  intros Hm Hcs.
  assert (K : is_member (priority (run_calls tbl cs t)) = true).
  { revert t Hm. induction Hcs as [|[c now] cs Hc _ IH]; simpl; intros t Hm.
    - exact Hm.
    - apply IH. unfold after. simpl in Hc.
      call_cases tbl c t; simpl; solve [exact Hm | reflexivity | contradiction]. }
  split; [exact K|].
  intros now. now apply to_dict_succeeds.
Qed.

Lemma typed_calls_keep_priority_member_witness :
  is_member (priority (run_calls upper_excerpt
                         [(SetPriority (OfStr (lit "low")), t1);
                          (SetPriority (OfInt 9), t2)] sample)) = true /\
  (forall now, succeeds (to_dict now
                           (run_calls upper_excerpt
                              [(SetPriority (OfStr (lit "low")), t1);
                               (SetPriority (OfInt 9), t2)] sample))).
Proof.
  apply (typed_calls_keep_priority_member upper_excerpt
           [(SetPriority (OfStr (lit "low")), t1); (SetPriority (OfInt 9), t2)]
           sample).
  - reflexivity.
  - repeat constructor.
Defined.

(** ** Repeating a transition *)

(** X14. Each transition is idempotent up to the clock: calling it twice in a
    row gives the outcome and the task of the second call made alone. *)
Theorem transition_twice (op : datetime -> M unit) (now1 now2 : datetime)
    (t : Task) :
  In op transitions ->
  (op now1 ;; op now2) t = op now2 t.
Proof.
  unfold transitions.
  intros [<- | [<- | [<- | []]]]; unfold bind;
    rewrite ?mark_in_progress_run, ?mark_completed_run, ?mark_cancelled_run;
    destruct (status t) eqn:E; simpl;
    rewrite ?mark_in_progress_run, ?mark_completed_run, ?mark_cancelled_run;
    simpl; rewrite ?E; reflexivity.
Qed.

Lemma transition_twice_witness :
  (mark_in_progress t1 ;; mark_in_progress t2) sample
    = (Return tt, with_updated_at t2 (with_status IN_PROGRESS sample)).
Proof.
  rewrite (transition_twice mark_in_progress t1 t2 sample).
  - reflexivity.
  - simpl. tauto.
Defined.

(** ** Setting the priority *)

(** X15. [set_priority] with a member, with a string whose uppercase form is the
    member's name or with the member's integer value stores that member and
    refreshes [updated_at], changing nothing else. *)
Theorem set_priority_stores_member (tbl : N -> str) (p : priority_value)
    (m : TaskPriority) (now : datetime) (t : Task) :
  normalizes_to tbl p m -> p <> OfNone ->
  set_priority tbl p now t
    = (Return tt, with_updated_at now (with_priority (OfEnum m) t)).
Proof.
  intros H Hp. rewrite set_priority_run.
  destruct p as [m'|n|s|]; simpl in H; subst.
  - reflexivity.
  - now rewrite TaskPriority_call_value.
  - now rewrite H, TaskPriority_getitem_name.
  - now destruct Hp.
Qed.

Lemma set_priority_stores_member_witness :
  set_priority upper_excerpt (OfStr (lit "cRiTiCaL")) t2 sample
    = (Return tt, with_updated_at t2 (with_priority (OfEnum CRITICAL) sample)).
Proof.
  apply (set_priority_stores_member upper_excerpt (OfStr (lit "cRiTiCaL"))
           CRITICAL t2 sample).
  - reflexivity.
  - discriminate.
Defined.

(** X16. [set_priority] with a string whose uppercase form is no member name
    raises [KeyError], with an integer that is no member value [ValueError];
    in both cases the priority and [updated_at] stay as they were. *)
Theorem set_priority_rejects_unknown (tbl : N -> str) (p : priority_value)
    (now : datetime) (t : Task) :
  unrecognized tbl p ->
  set_priority tbl p now t = (Raise (lookup_error tbl p), t).
Proof.
  intros H. rewrite set_priority_run.
  destruct p as [m|n|s|]; simpl in *; try contradiction.
  - now rewrite (TaskPriority_call_unknown n H).
  - now rewrite (TaskPriority_getitem_unknown _ H).
Qed.

Lemma set_priority_rejects_unknown_witness :
  set_priority upper_excerpt (OfInt 5) t2 sample = (Raise (ValueError 5), sample).
Proof.
  apply (set_priority_rejects_unknown upper_excerpt (OfInt 5) t2 sample).
  intros m; destruct m; discriminate.
Defined.

Lemma with_priority_same (t : Task) :
  with_priority (priority t) t = t.
Proof. now destruct t. Qed.

(** X17. The priority code [to_dict] exports leads back to the same priority:
    passing it to [set_priority] changes nothing but [updated_at]. *)
Theorem exported_priority_round_trip (tbl : N -> str) (now now' : datetime)
    (t : Task) (d : dict) (k : Z) :
  outcome (to_dict now t) = Return d ->
  dict_get d "priority" = Some (PyInt k) ->
  set_priority tbl (OfInt k) now' t = (Return tt, with_updated_at now' t).
Proof.
  unfold outcome, to_dict, bind, get. simpl.
  destruct (priority t) as [m| | |] eqn:Hp; simpl; try discriminate.
  destruct (is_overdue_total now t) as [b Hb]. rewrite Hb. simpl.
  intros [= <-]. simpl. intros [= <-].
  rewrite set_priority_run, TaskPriority_call_value, <- Hp.
  now rewrite with_priority_same.
Qed.

Lemma exported_priority_round_trip_witness :
  set_priority upper_excerpt (OfInt 3) t2 sample
    = (Return tt, with_updated_at t2 sample).
Proof.
  eapply (exported_priority_round_trip upper_excerpt t1 t2 sample);
    reflexivity.
Defined.

(** ** Overdue tasks over time and across transitions *)

(** X18. Being overdue lasts: a task that is overdue stays overdue at every later
    time, as long as it is not changed. *)
Theorem overdue_lasts (now now' : datetime) (t : Task) :
  outcome (is_overdue now t) = Return true ->
  ~ datetime_lt now' now ->
  outcome (is_overdue now' t) = Return true.
Proof.
  unfold is_overdue, bind, get, outcome. simpl.
  destruct (due_date t) as [due|]; simpl; [|discriminate].
  rewrite !datetime_gtb_ltb. intros [= H] Hle.
  apply andb_true_iff in H. destruct H as [H Hc].
  apply andb_true_iff in H. destruct H as [H Hd].
  rewrite Hc, Hd, !andb_true_r. f_equal.
  apply datetime_ltb_lt. apply datetime_ltb_lt in H.
  exact (datetime_lt_le_trans due now now' H Hle).
Qed.

Lemma overdue_lasts_witness :
  outcome (is_overdue t2 sample) = Return true /\
  outcome (is_overdue (mk_datetime 2031 1 1 0 0 0 0) sample) = Return true.
Proof.
  split; [reflexivity|].
  apply (overdue_lasts t2 (mk_datetime 2031 1 1 0 0 0 0) sample).
  - reflexivity.
  - discriminate.
Defined.

(** X19. Before or at its due date a task is not overdue, whatever its status. *)
Theorem not_overdue_until_due (now due : datetime) (t : Task) :
  due_date t = Some due ->
  ~ datetime_lt due now ->
  outcome (is_overdue now t) = Return false.
Proof.
  unfold is_overdue, bind, get, outcome. simpl.
  intros -> H. simpl. rewrite datetime_gtb_ltb.
  destruct (datetime_ltb due now) eqn:E; [|reflexivity].
  apply datetime_ltb_lt in E. contradiction.
Qed.

Lemma not_overdue_until_due_witness :
  outcome (is_overdue t1 sample) = Return false.
Proof.
  apply (not_overdue_until_due t1 t1 sample).
  - reflexivity.
  - discriminate.
Defined.

(** X20. A task that was just completed or cancelled is not overdue, at any time
    and however old its due date. *)
Theorem closed_task_is_not_overdue (op : datetime -> M unit)
    (now now' : datetime) (t : Task) :
  In op [mark_completed; mark_cancelled] ->
  outcome (op now t) = Return tt ->
  outcome (is_overdue now' (after (op now t))) = Return false.
Proof.
  unfold outcome, after.
  intros [<- | [<- | []]];
    rewrite ?mark_completed_run, ?mark_cancelled_run;
    destruct (status t); simpl; intros H; try discriminate H;
    unfold is_overdue, bind, get; simpl;
    destruct (due_date t); simpl;
    rewrite ?andb_false_r; reflexivity.
Qed.

Lemma closed_task_is_not_overdue_witness :
  outcome (is_overdue t2 sample) = Return true /\
  outcome (is_overdue t2 (after (mark_completed t2 sample))) = Return false.
Proof.
  split; [reflexivity|].
  apply (closed_task_is_not_overdue mark_completed t2 t2 sample).
  - simpl. tauto.
  - reflexivity.
Defined.

(** ** Dictionary export: when it fails and what it keeps apart *)

(** X21. [to_dict] never changes the task; it returns exactly when the priority
    is a member of the enumeration and raises [AttributeError] otherwise. *)
Theorem to_dict_total_on_members (now : datetime) (t : Task) :
  after (to_dict now t) = t /\
  (succeeds (to_dict now t) <-> is_member (priority t) = true) /\
  (is_member (priority t) = false ->
   outcome (to_dict now t) = Raise (AttributeError "value")).
Proof.
  destruct (is_overdue_total now t) as [b Hb].
  unfold succeeds, after, outcome, to_dict, bind, get. simpl.
  destruct (priority t) as [m|n|s|]; simpl; rewrite ?Hb; simpl.
  - split; [reflexivity|]. split; [|discriminate]. split; eauto.
  - split; [reflexivity|]. split; [|reflexivity].
    split; [intros [? ?]|]; discriminate.
  - split; [reflexivity|]. split; [|reflexivity].
    split; [intros [? ?]|]; discriminate.
  - split; [reflexivity|]. split; [|reflexivity].
    split; [intros [? ?]|]; discriminate.
Qed.

(** X22. The dictionary tells tasks apart: two tasks with the same export have the
    same id, title, description, status and priority, and both or neither
    have a due date. *)
Theorem to_dict_keeps_fields_apart (now now' : datetime) (t t' : Task)
    (d : dict) :
  outcome (to_dict now t) = Return d ->
  outcome (to_dict now' t') = Return d ->
  task_id t = task_id t' /\ title t = title t' /\
  description t = description t' /\ status t = status t' /\
  priority t = priority t' /\
  (due_date t = None <-> due_date t' = None).
Proof.
  destruct (is_overdue_total now t) as [b Hb].
  destruct (is_overdue_total now' t') as [b' Hb'].
  unfold outcome, to_dict, bind, get. simpl.
  destruct (priority t) as [m| | |]; simpl; try discriminate.
  destruct (priority t') as [m'| | |]; simpl; try discriminate.
  rewrite Hb, Hb'. simpl. intros [= <-] [= H1 H2 H3 H4 H5 _ _ H6 _].
  apply TaskStatus_value_inj in H4. apply TaskPriority_value_inj in H5.
  subst. repeat split; try congruence.
  - destruct (due_date t), (due_date t'); congruence.
  - destruct (due_date t), (due_date t'); congruence.
Qed.

Lemma to_dict_keeps_fields_apart_witness :
  exists d,
    outcome (to_dict t2 sample) = Return d /\
    outcome (to_dict (mk_datetime 2031 1 1 0 0 0 0) sample) = Return d /\
    status sample = status sample /\ priority sample = priority sample.
Proof.
  eexists. split; [reflexivity|]. split; [reflexivity|].
  destruct (to_dict_keeps_fields_apart t2 (mk_datetime 2031 1 1 0 0 0 0)
              sample sample _ eq_refl eq_refl) as (_ & _ & _ & Hs & Hp & _).
  split; assumption.
Defined.

Lemma to_dict_total_on_members_witness :
  succeeds (to_dict t2 sample) /\
  outcome (to_dict t2 (with_priority (OfStr (lit "high")) sample))
    = Raise (AttributeError "value").
Proof.
  split.
  - apply (to_dict_total_on_members t2 sample). reflexivity.
  - apply (to_dict_total_on_members t2
             (with_priority (OfStr (lit "high")) sample)).
    reflexivity.
Defined.
